(** * Chain-of-Experts: prompt units and baseline solvers

    A shallow embedding of

      - [experts/base_expert.py]      (class [BaseExpert]),
      - [baseline/standard.py]        (function [solve]),
      - [baseline/chain_of_thought.py] (function [solve]),

    together with the small part of Python and of the prompting library
    that these files rely on: attribute lookup, string concatenation,
    format-string templates, and a text-completion client whose requests
    are recorded in a log.  The backend that answers the requests, and
    Python's formatting of replacement fields that are more than a bare
    name, are parameters. *)

From Stdlib Require Import Ascii String ZArith Lia.
From stdpp Require Import base option list strings gmap.

Local Open Scope Z_scope.

(* ===================================================================== *)
(** * Python values, exceptions and results *)
(* ===================================================================== *)

(** The Python values that reach the code under study: [None] and [str]. *)
Inductive value : Type :=
  | VNone
  | VStr (s : string).

#[global] Instance value_eq_dec : EqDecision value.
Proof. solve_decision. Defined.

(** [str(v)], which is also [format(v, '')] on these values. *)
Definition py_str (v : value) : string :=
  match v with
  | VNone => "None"
  | VStr s => s
  end.

(** Exceptions, by Python class.  [ExternalError] stands for whatever the
    completion client raises (network, authentication, service errors);
    it carries the class name reported by the client. *)
Inductive exn : Type :=
  | AttributeError (attr : string)
  | TypeError (msg : string)
  | KeyError (key : string)
  | ValueError (msg : string)
  | ExternalError (cls msg : string).

Definition exn_class (e : exn) : string :=
  match e with
  | AttributeError _ => "AttributeError"
  | TypeError _ => "TypeError"
  | KeyError _ => "KeyError"
  | ValueError _ => "ValueError"
  | ExternalError cls _ => cls
  end.

Inductive result (A : Type) : Type :=
  | Ok (a : A)
  | Raise (e : exn).
Arguments Ok {A} a.
Arguments Raise {A} e.

#[global] Instance result_ret : MRet result := @Ok.
#[global] Instance result_bind : MBind result := λ A B f m,
  match m with
  | Ok a => f a
  | Raise e => Raise e
  end.
#[global] Instance result_fmap : FMap result := λ A B f m,
  match m with
  | Ok a => Ok (f a)
  | Raise e => Raise e
  end.

(** [raises r cls]: the computation ended in an exception of class [cls]. *)
Definition raises {A} (r : result A) (cls : string) : Prop :=
  ∃ e, r = Raise e ∧ exn_class e = cls.


(** [a + b] on Python values: defined on two strings only. *)
Definition py_add (a b : value) : result value :=
  match a, b with
  | VStr s, VStr t => Ok (VStr (s +:+ t))
  | VStr _, VNone => Raise (TypeError "can only concatenate str (not NoneType) to str")
  | VNone, _ => Raise (TypeError "unsupported operand type(s) for +")
  end.

(** [d[k]] on a dict. *)
Definition py_getitem (d : gmap string value) (k : string) : result value :=
  match d !! k with
  | Some v => Ok v
  | None => Raise (KeyError k)
  end.

Definition nl : string := String "010"%char "".

(* ===================================================================== *)
(** * Format-string templates *)
(* ===================================================================== *)

(** Text is a [string]: the characters with code below 256, one [ascii]
    each. *)

(** [PromptTemplate.from_template] reads its argument with Python's
    [string.Formatter().parse].  A format string is literal text, in which
    [{{] and [}}] stand for one brace, and replacement fields
    [{name!conversion:spec}]: the name runs up to the first [!], [:] or
    closing brace outside square brackets, the conversion is the one
    character after [!], the specification runs up to the brace that closes
    the field, braces inside it being counted. *)
Inductive item : Type :=
  | Text (c : ascii)
  | Field (name : string) (conversion : option ascii) (format_spec : string).

(** Where the scan stands: in literal text; after a brace that may be
    half of a doubled one; in a field name, outside or inside square
    brackets; after [!]; after the conversion character; in a format
    specification, [depth] braces deep. *)
Inductive scan_state : Type :=
  | SText
  | SOpen
  | SClose
  | SName (name : string)
  | SIndex (name : string)
  | SBang (name : string)
  | SConv (name : string) (conversion : ascii)
  | SSpec (name : string) (conversion : option ascii) (spec : string) (depth : nat).

Definition snoc (s : string) (c : ascii) : string := s +:+ String c "".

(** A conversion character of code 0 counts as no conversion. *)
Definition conversion_of (c : ascii) : option ascii :=
  if decide (c = "000"%char) then None else Some c.

Definition step_name (name : string) (c : ascii) : result (scan_state * list item) :=
  if decide (c = "{"%char) then Raise (ValueError "unexpected '{' in field name")
  else if decide (c = "["%char) then Ok (SIndex (snoc name c), [])
  else if decide (c = "}"%char) then Ok (SText, [Field name None ""])
  else if decide (c = ":"%char) then Ok (SSpec name None "" 0, [])
  else if decide (c = "!"%char) then Ok (SBang name, [])
  else Ok (SName (snoc name c), []).

Definition step (st : scan_state) (c : ascii) : result (scan_state * list item) :=
  match st with
  | SText =>
      if decide (c = "{"%char) then Ok (SOpen, [])
      else if decide (c = "}"%char) then Ok (SClose, [])
      else Ok (SText, [Text c])
  | SOpen =>
      if decide (c = "{"%char) then Ok (SText, [Text "{"]) else step_name "" c
  | SClose =>
      if decide (c = "}"%char) then Ok (SText, [Text "}"])
      else Raise (ValueError "Single '}' encountered in format string")
  | SName name => step_name name c
  | SIndex name =>
      if decide (c = "]"%char) then Ok (SName (snoc name c), [])
      else Ok (SIndex (snoc name c), [])
  | SBang name => Ok (SConv name c, [])
  | SConv name cv =>
      if decide (c = "}"%char) then Ok (SText, [Field name (conversion_of cv) ""])
      else if decide (c = ":"%char) then Ok (SSpec name (conversion_of cv) "" 0, [])
      else Raise (ValueError "expected ':' after conversion specifier")
  | SSpec name cv spec depth =>
      if decide (c = "{"%char) then Ok (SSpec name cv (snoc spec c) (S depth), [])
      else if decide (c = "}"%char) then
        match depth with
        | O => Ok (SText, [Field name cv spec])
        | S depth' => Ok (SSpec name cv (snoc spec c) depth', [])
        end
      else Ok (SSpec name cv (snoc spec c) depth, [])
  end.

Definition at_end (st : scan_state) : result (list item) :=
  match st with
  | SText => Ok []
  | SOpen => Raise (ValueError "Single '{' encountered in format string")
  | SClose => Raise (ValueError "Single '}' encountered in format string")
  | SName _ | SIndex _ => Raise (ValueError "expected '}' before end of string")
  | SBang _ =>
      Raise (ValueError "end of string while looking for conversion specifier")
  | SConv _ _ | SSpec _ _ _ _ => Raise (ValueError "unmatched '{' in format spec")
  end.

Fixpoint parse (st : scan_state) (s : string) : result (list item) :=
  match s with
  | "" => at_end st
  | String c r =>
      '(st', out) ← step st c;
      app out <$> parse st' r
  end.

Fixpoint field_names (items : list item) : list string :=
  match items with
  | [] => []
  | Text _ :: rest => field_names rest
  | Field name _ _ :: rest => name :: field_names rest
  end.

Fixpoint contains (c : ascii) (s : string) : bool :=
  match s with
  | "" => false
  | String c' r => bool_decide (c = c') || contains c r
  end.

(** [str.isdigit]: the ten digits and the superscripts two, three, one. *)
Definition is_digit (c : ascii) : bool :=
  let n := nat_of_ascii c in
  bool_decide (48 ≤ n ≤ 57)%nat || bool_decide (n = 178%nat)
  || bool_decide (n = 179%nat) || bool_decide (n = 185%nat).

Fixpoint all_digits (s : string) : bool :=
  match s with
  | "" => true
  | String c r => is_digit c && all_digits r
  end.

Definition isdigit (s : string) : bool :=
  negb (bool_decide (s = "")) && all_digits s.

(** The names that [from_template] refuses: attribute access, indexing,
    and names that are all digits. *)
Definition invalid_name (name : string) : bool :=
  contains "." name || contains "[" name || contains "]" name || isdigit name.

(** [sorted(set(names))] *)
Fixpoint insert_name (x : string) (l : list string) : list string :=
  match l with
  | [] => [x]
  | y :: l' =>
      if decide (x = y) then l
      else if String.ltb x y then x :: l
      else y :: insert_name x l'
  end.

Definition sorted_names (names : list string) : list string :=
  foldr insert_name [] names.

Record PromptTemplate : Type := mkPromptTemplate {
  template : string;
  input_variables : list string
}.

Definition from_template (t : string) : result PromptTemplate :=
  items ← parse SText t;
  let names := field_names items in
  if existsb invalid_name names
  then Raise (ValueError "Invalid variable name in f-string template")
  else mret (mkPromptTemplate t (sorted_names names)).

(** What Python makes of a replacement field that is more than a bare
    keyword name: an empty or positional name, attribute access or
    indexing, a conversion, a format specification.  No template of this
    repository has such a field.  Their formatting is not modelled: it is
    a parameter, given the keyword arguments and the three parts of the
    field. *)
Class FieldFormatting : Type :=
  format_field : gmap string value → string → option ascii → string → result string.

Definition is_bare (name : string) (conversion : option ascii) (spec : string) : bool :=
  negb (bool_decide (name = "")) && negb (invalid_name name)
  && bool_decide (conversion = None) && bool_decide (spec = "").

(** The items of a stretch of literal text. *)
Definition text_items (s : string) : list item :=
  Text <$> list_ascii_of_string s.

Section Rendering.
Context {formatting : FieldFormatting}.

Definition render_field (kwargs : gmap string value) (name : string)
    (conversion : option ascii) (spec : string) : result string :=
  if is_bare name conversion spec then
    match kwargs !! name with
    | Some v => Ok (py_str v)
    | None => Raise (KeyError name)
    end
  else format_field kwargs name conversion spec.

Fixpoint render (items : list item) (kwargs : gmap string value) : result string :=
  match items with
  | [] => Ok ""
  | Text c :: rest => String c <$> render rest kwargs
  | Field name conversion spec :: rest =>
      text ← render_field kwargs name conversion spec;
      String.append text <$> render rest kwargs
  end.

(** [prompt.format] applied to keyword arguments [kwargs], for a prompt
    built by [from_template]. *)
Definition format (p : PromptTemplate) (kwargs : gmap string value) : result string :=
  items ← parse SText (template p);
  render items kwargs.

End Rendering.

(* ===================================================================== *)
(** * The text-completion client *)
(* ===================================================================== *)

(** The client object.  Building it sends nothing; it is taken to succeed
    (the credentials it reads from the environment are in place). *)
Record ChatOpenAI : Type := mkChatOpenAI {
  llm_model : string;
  llm_temperature : Z
}.

Record LLMChain : Type := mkLLMChain {
  chain_llm : ChatOpenAI;
  chain_prompt : PromptTemplate
}.

(** One outbound request: what the backend is invoked with. *)
Record Request : Type := mkRequest {
  req_model : string;
  req_temperature : Z;
  req_prompt : string
}.

(** Computations over a state [S] that may raise.  The baseline solvers
    run over the log of requests dispatched so far; the methods of an
    expert run over the expert object and that log. *)
Definition M (S A : Type) : Type := S → result A * S.

Definition ret {S A} (a : A) : M S A := λ st, (Ok a, st).
Definition raise {S A} (e : exn) : M S A := λ st, (Raise e, st).
Definition lift {S A} (r : result A) : M S A := λ st, (r, st).
Definition bind {S A B} (m : M S A) (k : A → M S B) : M S B := λ st,
  match m st with
  | (Ok a, st') => k a st'
  | (Raise e, st') => (Raise e, st')
  end.

#[global] Instance M_ret {S} : MRet (M S) := @ret S.
#[global] Instance M_bind {S} : MBind (M S) := λ A B k m, bind m k.

(** [LLMChain.predict]: check that every input variable of the prompt is
    bound, render the prompt with the inputs it names, send it to the
    model of the chain, return the text of the completion.  The backend
    is a parameter; sending a request appends it to the log, whether or
    not the backend answers. *)
Section Client.
Context {formatting : FieldFormatting} (backend : Request → result string).

Definition invoke (llm : ChatOpenAI) (text : string) : M (list Request) string := λ log,
  let req := mkRequest (llm_model llm) (llm_temperature llm) text in
  (backend req, log ++ [req]).

Definition missing_keys (p : PromptTemplate) (kwargs : gmap string value) : list string :=
  filter (λ k, kwargs !! k = None) (input_variables p).

Definition select_inputs (p : PromptTemplate) (kwargs : gmap string value)
  : gmap string value :=
  filter (λ kv, kv.1 ∈ input_variables p) kwargs.

Definition predict (chain : LLMChain) (kwargs : gmap string value)
  : M (list Request) string :=
  if decide (missing_keys (chain_prompt chain) kwargs = [])
  then
    text ← lift (format (chain_prompt chain)
                   (select_inputs (chain_prompt chain) kwargs));
    invoke (chain_llm chain) text
  else raise (ValueError "Missing some input keys").
End Client.

(* ===================================================================== *)
(** * utils.py: code extraction *)
(* ===================================================================== *)

Module utils.

Definition fence : string := "```".

(** [after_prefix p s] is what follows [p] in [s] when [s] starts with [p]. *)
Fixpoint after_prefix (p s : string) : option string :=
  match p, s with
  | "", _ => Some s
  | String _ _, "" => None
  | String a p', String b s' => if decide (a = b) then after_prefix p' s' else None
  end.

(** The first occurrence of the fence in [s]: the text before it and the
    text after it. *)
Fixpoint find_fence (s : string) : option (string * string) :=
  match after_prefix fence s with
  | Some rest => Some ("", rest)
  | None =>
      match s with
      | "" => None
      | String c r => prod_map (String c) id <$> find_fence r
      end
  end.

(** The first newline of [s]: the line before it and the text after it. *)
Fixpoint split_line (s : string) : option (string * string) :=
  match s with
  | "" => None
  | String "010" r => Some ("", r)
  | String c r => prod_map (String c) id <$> split_line r
  end.

Fixpoint is_word (s : string) : bool :=
  match s with
  | "" => true
  | String c r => negb (Ascii.is_space c) && is_word r
  end.

Fixpoint lstrip (s : string) : string :=
  match s with
  | "" => ""
  | String c r => if Ascii.is_space c then lstrip r else s
  end.

Fixpoint rstrip (s : string) : string :=
  match s with
  | "" => ""
  | String c r =>
      match rstrip r with
      | "" => if Ascii.is_space c then "" else String c ""
      | r' => String c r'
      end
  end.

Definition strip (s : string) : string := lstrip (rstrip s).

(** The language tag of a fenced block is what follows the opening fence
    on its line, when that is a single word (possibly empty). *)
Definition drop_language_tag (inner : string) : string :=
  match split_line inner with
  | Some (tag, body) => if is_word tag then body else inner
  | None => inner
  end.

(** The inner text of the first fenced block: what lies between the first
    fence and the next one. *)
Definition fenced_block (response : string) : option string :=
  '(_, after_open) ← find_fence response;
  '(inner, _) ← find_fence after_open;
  Some inner.

(** Modelled from the spec: [utils.extract_code_from_string], imported by
    both baseline modules, is not among the sources.  The spec's
    extraction contract: locate a fenced code block (a substring
    delimited by triple-backtick markers, optionally annotated with a
    language tag) and return its inner text, whitespace-trimmed; if no
    fenced block is found, return the full response unchanged.  The
    helpers above ([find_fence] to [fenced_block]) belong to this model. *)
Definition extract_code_from_string (response : string) : string :=
  match fenced_block response with
  | Some inner => strip (drop_language_tag inner)
  | None => response
  end.

End utils.

(* ===================================================================== *)
(** * experts/base_expert.py *)
(* ===================================================================== *)

Module base_expert.

(** A concrete expert is a subclass whose body defines the class
    attributes [ROLE_DESCRIPTION], [FORWARD_TASK] and, optionally,
    [BACKWARD_TASK].  The class is represented by its namespace. *)
Definition hasattr (cls : gmap string value) (a : string) : bool :=
  bool_decide (is_Some (cls !! a)).

(** [self.a] for an attribute that [__init__] does not assign: the
    lookup falls through to the class. *)
Definition getattr (cls : gmap string value) (a : string) : result value :=
  match cls !! a with
  | Some v => Ok v
  | None => Raise (AttributeError a)
  end.

(** [PromptTemplate.from_template] applied to a Python value. *)
Definition from_template_value (v : value) : result PromptTemplate :=
  match v with
  | VStr t => from_template t
  | VNone => Raise (TypeError "expected str, got NoneType")
  end.

Record BaseExpert : Type := mkBaseExpert {
  class_of : gmap string value;
  name : string;
  description : string;
  model : string;
  llm : ChatOpenAI;
  forward_prompt_template : value;
  forward_chain : LLMChain;
  backward_prompt_template : option value;
  backward_chain : option LLMChain
}.

(** [BaseExpert.__init__], run for an instance of the class [cls]. *)
Definition init (cls : gmap string value) (name description model : string)
  : result BaseExpert :=
  let llm := mkChatOpenAI model 0 in
  role ← getattr cls "ROLE_DESCRIPTION";
  head ← py_add role (VStr nl);
  task ← getattr cls "FORWARD_TASK";
  forward_prompt_template ← py_add head task;
  forward_prompt ← from_template_value forward_prompt_template;
  let forward_chain := mkLLMChain llm forward_prompt in
  if hasattr cls "BACKWARD_TASK" then
    role ← getattr cls "ROLE_DESCRIPTION";
    head ← py_add role (VStr nl);
    task ← getattr cls "BACKWARD_TASK";
    backward_prompt_template ← py_add head task;
    backward_prompt ← from_template_value backward_prompt_template;
    let backward_chain := mkLLMChain llm backward_prompt in
    mret (mkBaseExpert cls name description model llm
            forward_prompt_template forward_chain
            (Some backward_prompt_template) (Some backward_chain))
  else
    mret (mkBaseExpert cls name description model llm
            forward_prompt_template forward_chain None None).

(** Methods run over the object and the request log, so that what a
    method does to [self] is visible in the state it leaves. *)
Definition self_attr {A} (attr : BaseExpert → A)
  : M (BaseExpert * list Request) A := λ st, (Ok (attr st.1), st).

(** [forward] and [backward] have the body [pass]. *)
Definition forward : M (BaseExpert * list Request) value :=
  ret VNone.

Definition backward : M (BaseExpert * list Request) value :=
  ret VNone.

(** [__str__] *)
Definition str : M (BaseExpert * list Request) string :=
  name ← self_attr name;
  description ← self_attr description;
  mret (name +:+ ": " +:+ description).

(** Calling a method declared with the single parameter [self] with
    keyword arguments [inputs]: any keyword is unexpected. *)
Definition call {A} (method : M (BaseExpert * list Request) A)
    (inputs : gmap string value) : M (BaseExpert * list Request) A :=
  if decide (inputs = ∅) then method
  else raise (TypeError "got an unexpected keyword argument").

End base_expert.

(* ===================================================================== *)
(** * baseline/standard.py *)
(* ===================================================================== *)

Definition default_model_name : string := "gpt-5-2025-08-07".

Module standard.

Definition prompt_template : string :=
  "You are a Python programmer in the field of operations research and optimization. Your proficiency in utilizing third-party libraries such as Gurobi is essential. In addition to your expertise in Gurobi, it would be great if you could also provide some background in related libraries or tools, like NumPy, SciPy, or PuLP." +:+ nl +:+
  "You are given a specific problem. You aim to develop an efficient Python program that addresses the given problem." +:+ nl +:+
  "Now the origin problem is as follow:" +:+ nl +:+
  "{problem}" +:+ nl +:+
  "Give your Python code directly.".

(** The keyword arguments of the [predict] call. *)
Definition predict_kwargs (problem : value) : gmap string value :=
  {[ "problem" := problem ]}.

(** For stating results: the template around its placeholder, and the
    prompt it renders to. *)
Definition prompt_head : string :=
  "You are a Python programmer in the field of operations research and optimization. Your proficiency in utilizing third-party libraries such as Gurobi is essential. In addition to your expertise in Gurobi, it would be great if you could also provide some background in related libraries or tools, like NumPy, SciPy, or PuLP." +:+ nl +:+
  "You are given a specific problem. You aim to develop an efficient Python program that addresses the given problem." +:+ nl +:+
  "Now the origin problem is as follow:" +:+ nl.

Definition prompt_tail : string :=
  nl +:+ "Give your Python code directly.".

Definition rendered (problem : value) : string :=
  prompt_head +:+ py_str problem +:+ prompt_tail.

Section solve.
Context {formatting : FieldFormatting} (backend : Request → result string).

Definition solve (problem : value) (model_name : string)
  : M (list Request) string :=
  let llm := mkChatOpenAI model_name 0 in
  prompt ← lift (from_template prompt_template);
  let llm_chain := mkLLMChain llm prompt in
  answer ← predict backend llm_chain (predict_kwargs problem);
  let code := utils.extract_code_from_string answer in
  ret code.
End solve.

End standard.

(* ===================================================================== *)
(** * baseline/chain_of_thought.py *)
(* ===================================================================== *)

Module chain_of_thought.

Definition prompt_template : string :=
  "You are a Python programmer in the field of operations research and optimization. Your proficiency in utilizing third-party libraries such as Gurobi is essential. In addition to your expertise in Gurobi, it would be great if you could also provide some background in related libraries or tools, like NumPy, SciPy, or PuLP." +:+ nl +:+
  "You are given a specific problem. You aim to develop an efficient Python program that addresses the given problem." +:+ nl +:+
  "Now the origin problem is as follow:" +:+ nl +:+
  "{problem_description}" +:+ nl +:+
  "Let's analyse the problem step by step, and then give your Python code." +:+ nl +:+
  "Here is a starter code:" +:+ nl +:+
  "{code_example}".

(** The keyword arguments of the [predict] call. *)
Definition predict_kwargs (problem_description code_example : value)
  : gmap string value :=
  {[ "problem_description" := problem_description;
     "code_example" := code_example ]}.

(** For stating results: the template around its placeholders, and the
    prompt it renders to. *)
Definition prompt_head : string :=
  "You are a Python programmer in the field of operations research and optimization. Your proficiency in utilizing third-party libraries such as Gurobi is essential. In addition to your expertise in Gurobi, it would be great if you could also provide some background in related libraries or tools, like NumPy, SciPy, or PuLP." +:+ nl +:+
  "You are given a specific problem. You aim to develop an efficient Python program that addresses the given problem." +:+ nl +:+
  "Now the origin problem is as follow:" +:+ nl.

Definition prompt_middle : string :=
  nl +:+
  "Let's analyse the problem step by step, and then give your Python code." +:+ nl +:+
  "Here is a starter code:" +:+ nl.

Definition rendered (problem_description code_example : value) : string :=
  prompt_head +:+ py_str problem_description +:+ prompt_middle +:+ py_str code_example.

Section solve.
Context {formatting : FieldFormatting} (backend : Request → result string).

Definition solve (problem_data : gmap string value) (model_name : string)
  : M (list Request) string :=
  problem_description ← lift (py_getitem problem_data "description");
  code_example ← lift (py_getitem problem_data "code_example");
  let llm := mkChatOpenAI model_name 0 in
  prompt ← lift (from_template prompt_template);
  let llm_chain := mkLLMChain llm prompt in
  answer ← predict backend llm_chain
              (predict_kwargs problem_description code_example);
  ret answer.
End solve.

End chain_of_thought.
(* ===================================================================== *)
(** * The spec's pipeline contract, and sample inputs *)
(* ===================================================================== *)

(** The contract that the spec words for [forward] and [backward], kept
    apart from the code: render the template of the pipeline [chain] with
    [inputs], dispatch one request at temperature 0, return the textual
    response; the object itself is left as it was. *)
Definition pipeline_contract {formatting : FieldFormatting} (backend : Request → result string)
    (chain : LLMChain) (inputs : gmap string value)
    (before after : base_expert.BaseExpert * list Request)
    (r : result value) : Prop :=
  ∃ text,
    format (chain_prompt chain) inputs = Ok text ∧
    let req := mkRequest (llm_model (chain_llm chain)) 0 text in
    after = (before.1, before.2 ++ [req]) ∧ r = VStr <$> backend req.

(** A field formatting for the samples, which have bare fields only. *)
Definition sample_formatting : FieldFormatting :=
  λ _ _ _ _, Raise (ValueError "Invalid format specifier").

(** A backend that always answers with one fenced block. *)
Definition fenced_backend : Request → result string :=
  λ _, Ok ("```python" +:+ nl +:+ "print(1)" +:+ nl +:+ "```").

Definition lp_problem_data : gmap string value :=
  {[ "description" := VStr "Maximize x + y subject to x <= 1, y <= 1";
     "code_example" := VStr "def prob_0():" ]}.

Definition incomplete_problem_data : gmap string value :=
  {[ "description" := VStr "Maximize x + y subject to x <= 1, y <= 1" ]}.

(** Expert classes: without and with a backward task, and classes whose
    attributes are missing or [None]. *)
Definition checker_class : gmap string value :=
  {[ "ROLE_DESCRIPTION" := VStr "You are a code reviewer.";
     "FORWARD_TASK" := VStr "Say whether the program is correct." ]}.

Definition modeling_class : gmap string value :=
  {[ "ROLE_DESCRIPTION" := VStr "You are a modeling expert.";
     "FORWARD_TASK" := VStr "Formulate the problem: {problem}";
     "BACKWARD_TASK" := VStr "Revise the model given: {feedback}" ]}.






(** A backend that is out of reach. *)
Definition failing_backend : Request → result string :=
  λ _, Raise (ExternalError "APIConnectionError" "Connection error.").

(** Problem data with a further key and a [None] entry, and the same data
    with the text in place of [None] and nothing else. *)
Definition annotated_problem_data : gmap string value :=
  {[ "description" := VStr "Minimize 820 x + 550 y";
     "code_example" := VNone;
     "answer" := VStr "217.0" ]}.

Definition plain_problem_data : gmap string value :=
  {[ "description" := VStr "Minimize 820 x + 550 y";
     "code_example" := VStr "None" ]}.

(** Problem data whose description already holds the lines that the
    template puts before the starter code, and the data it is taken for. *)
Definition forged_problem_data : gmap string value :=
  {[ "description" :=
       VStr ("Minimize x" +:+ chain_of_thought.prompt_middle +:+ "import os");
     "code_example" := VStr "def prob_0():" ]}.

Definition honest_problem_data : gmap string value :=
  {[ "description" := VStr "Minimize x";
     "code_example" :=
       VStr ("import os" +:+ chain_of_thought.prompt_middle +:+ "def prob_0():") ]}.

(** Expert classes with a field in the role description, and with
    templates that are not well formed. *)
Definition domain_class : gmap string value :=
  {[ "ROLE_DESCRIPTION" := VStr "You are an expert in {domain}.";
     "FORWARD_TASK" := VStr "Formulate the problem: {problem}" ]}.

Definition shared_field_class : gmap string value :=
  {[ "ROLE_DESCRIPTION" := VStr "As {zeta}, for {x}:";
     "FORWARD_TASK" := VStr "Solve {alpha} with {x}." ]}.



(* ===================================================================== *)
(** * Strings *)
(* ===================================================================== *)

Section StringFacts.

Lemma append_cons (c : ascii) (s t : string) :
  String c s +:+ t = String c (s +:+ t).
Proof. reflexivity. Qed.

Lemma append_nil_l (s : string) : "" +:+ s = s.
Proof. reflexivity. Qed.

Lemma append_nil_r (s : string) : s +:+ "" = s.
Proof. induction s as [|c s IH]; [done|]. by rewrite append_cons, IH. Qed.

Lemma append_assoc (s t u : string) : (s +:+ t) +:+ u = s +:+ t +:+ u.
Proof.
  induction s as [|c s IH]; [done|].
  by rewrite !append_cons, IH.
Qed.

Lemma length_append (s t : string) :
  String.length (s +:+ t) = (String.length s + String.length t)%nat.
Proof.
  induction s as [|c s IH]; [done|].
  rewrite append_cons. simpl. by rewrite IH.
Qed.

(** Two ways of cutting the same string: one cut lies before the other. *)
Lemma append_eq_inv (x y u v : string) :
  x +:+ y = u +:+ v →
  (∃ k, x = u +:+ k ∧ v = k +:+ y) ∨ (∃ k, u = x +:+ k ∧ y = k +:+ v).
Proof.
  revert u. induction x as [|a x IH]; intros u H.
  - right. exists u. by rewrite !append_nil_l in *.
  - destruct u as [|b u].
    + left. exists (String a x). by rewrite append_nil_l in *.
    + rewrite !append_cons in H. injection H as -> H.
      destruct (IH _ H) as [(k & -> & ->)|(k & -> & ->)]; [left|right];
        by exists k.
Qed.

End StringFacts.

(* ===================================================================== *)
(** * Searching for fences *)
(* ===================================================================== *)

Section Fences.
Import utils.

Lemma after_prefix_Some (p s rest : string) :
  after_prefix p s = Some rest ↔ s = p +:+ rest.
Proof.
  revert s. induction p as [|a p IH]; intros s; simpl.
  - rewrite append_nil_l. naive_solver.
  - destruct s as [|b s]; [by rewrite append_cons|].
    rewrite append_cons. case_decide as Hab.
    + subst b. rewrite IH. split; [by intros ->|by intros [= ->]].
    + split; [done|]. by intros [= ? _].
Qed.

Lemma find_fence_unfold (s : string) :
  find_fence s =
    match after_prefix fence s with
    | Some rest => Some ("", rest)
    | None =>
        match s with
        | "" => None
        | String c r => prod_map (String c) id <$> find_fence r
        end
    end.
Proof. by destruct s. Qed.

(** What [find_fence] returns is a decomposition of its argument. *)
Lemma find_fence_Some (s before after : string) :
  find_fence s = Some (before, after) → s = before +:+ fence +:+ after.
Proof.
  revert before. induction s as [|c s IH]; intros before;
    rewrite find_fence_unfold.
  - destruct (after_prefix fence "") as [rest|] eqn:E; [|done].
    apply after_prefix_Some in E. intros [= <- <-]. by rewrite append_nil_l.
  - destruct (after_prefix fence (String c s)) as [rest|] eqn:E.
    + apply after_prefix_Some in E. intros [= <- <-]. by rewrite append_nil_l.
    + destruct (find_fence s) as [[b a]|] eqn:F; [|done].
      intros [= <- <-]. rewrite append_cons. f_equal. by apply IH.
Qed.

(** [find_fence] finds the first fence: whenever the argument contains one,
    the search succeeds, and everything after the given occurrence is still
    part of what follows the occurrence found. *)
Lemma find_fence_first (a t : string) :
  ∃ before after k,
    find_fence (a +:+ fence +:+ t) = Some (before, after) ∧ after = k +:+ t.
Proof.
  induction a as [|c a IH]; rewrite find_fence_unfold.
  - rewrite append_nil_l.
    destruct (after_prefix fence (fence +:+ t)) as [rest|] eqn:E.
    + apply after_prefix_Some in E. apply (inj _) in E as <-.
      by exists "", t, "".
    + assert (after_prefix fence (fence +:+ t) = Some t) as E'
        by by apply after_prefix_Some.
      congruence.
  - destruct (after_prefix fence _) as [rest|] eqn:E.
    + apply after_prefix_Some in E.
      rewrite <-append_assoc in E. symmetry in E.
      destruct (append_eq_inv _ _ _ _ E) as [(k & Hk & _)|(k & _ & ->)].
      * apply (f_equal String.length) in Hk.
        rewrite !length_append in Hk. simpl in Hk. lia.
      * by exists "", (k +:+ t), k.
    + rewrite append_cons.
      destruct IH as (before & after & k & -> & ->).
      by exists (String c before), (k +:+ t), k.
Qed.

Lemma find_fence_None (s : string) :
  find_fence s = None ↔ ∀ a b, s ≠ a +:+ fence +:+ b.
Proof.
  split.
  - intros H a b ->.
    destruct (find_fence_first a b) as (? & ? & ? & ? & _). congruence.
  - intros H. destruct (find_fence s) as [[a b]|] eqn:E; [|done].
    apply find_fence_Some in E. by destruct (H a b).
Qed.

Lemma fenced_block_None (s : string) :
  fenced_block s = None ↔ ∀ a b c, s ≠ a +:+ fence +:+ b +:+ fence +:+ c.
Proof.
  unfold fenced_block. split.
  - intros H a b c ->.
    destruct (find_fence_first a (b +:+ fence +:+ c))
      as (before & after & k & E0 & ->).
    rewrite E0 in H. simpl in H. rewrite <-append_assoc in H.
    destruct (find_fence_first (k +:+ b) c) as (? & ? & ? & E & _).
    by rewrite E in H.
  - intros H. destruct (find_fence s) as [[a rest]|] eqn:E1; [simpl|done].
    destruct (find_fence rest) as [[b c]|] eqn:E2; [|done].
    apply find_fence_Some in E1, E2. subst. by destruct (H a b c).
Qed.

Lemma find_fence_None_fenced_block (s : string) :
  find_fence s = None → fenced_block s = None.
Proof. unfold fenced_block. by intros ->. Qed.

Lemma extract_no_block (s : string) :
  fenced_block s = None → extract_code_from_string s = s.
Proof. unfold extract_code_from_string. by intros ->. Qed.

End Fences.

(** The spec's scenarios for extraction. *)
Example extract_fenced_python :
  utils.extract_code_from_string ("prefix ```python" +:+ nl +:+ "CODE" +:+ nl +:+ "``` suffix") = "CODE".
Proof. reflexivity. Qed.

Example extract_fenced_function :
  utils.extract_code_from_string ("```python" +:+ nl +:+ "def f(): return 2" +:+ nl +:+ "```")
  = "def f(): return 2".
Proof. reflexivity. Qed.

Example extract_unfenced : utils.extract_code_from_string "x = 1" = "x = 1".
Proof. reflexivity. Qed.

Example extract_single_fence : utils.extract_code_from_string "a ``` b" = "a ``` b".
Proof. reflexivity. Qed.

(** C6. For every response that contains no block delimited by two
    triple-backtick fences, code extraction returns the response
    unchanged. *)
Theorem extract_fallback (response : string) :
  (∀ a b c, response ≠ a +:+ utils.fence +:+ b +:+ utils.fence +:+ c) →
  utils.extract_code_from_string response = response.
Proof. intros H. by apply extract_no_block, fenced_block_None. Qed.

Lemma extract_fallback_single_fence :
  utils.extract_code_from_string "import gurobipy ``` # no closing fence"
  = "import gurobipy ``` # no closing fence".
Proof. apply extract_fallback. by apply fenced_block_None. Defined.

(** C7. On a bare code string, one that contains no fence, extracting
    twice gives the same as extracting once. *)
Theorem extract_idempotent_bare (x : string) :
  (∀ a b, x ≠ a +:+ utils.fence +:+ b) →
  utils.extract_code_from_string (utils.extract_code_from_string x)
  = utils.extract_code_from_string x.
Proof.
  intros H. apply find_fence_None, find_fence_None_fenced_block in H.
  by rewrite !(extract_no_block x H).
Qed.

Lemma extract_idempotent_bare_print :
  utils.extract_code_from_string (utils.extract_code_from_string "print(prob_218())")
  = utils.extract_code_from_string "print(prob_218())".
Proof. apply extract_idempotent_bare. by apply find_fence_None. Defined.


(* ===================================================================== *)
(** * The completion client *)
(* ===================================================================== *)

Section ClientFacts.
Context {formatting : FieldFormatting} (backend : Request → result string).

Lemma render_text (s : string) (rest : list item) (kwargs : gmap string value) :
  render (text_items s ++ rest) kwargs = String.append s <$> render rest kwargs.
Proof.
  induction s as [|c s IH].
  - change (text_items "" ++ rest) with rest.
    destruct (render rest kwargs); reflexivity.
  - change (text_items (String c s)) with (Text c :: text_items s).
    cbn [app render]. rewrite IH.
    destruct (render rest kwargs); reflexivity.
Qed.

Lemma render_text_only (s : string) (kwargs : gmap string value) :
  render (text_items s) kwargs = Ok s.
Proof.
  rewrite <-(app_nil_r (text_items s)), render_text. cbn.
  by rewrite append_nil_r.
Qed.

(** The inputs handed to the prompt are those it names, unchanged. *)
Lemma select_inputs_lookup (p : PromptTemplate) (kwargs : gmap string value)
    (k : string) :
  k ∈ input_variables p → select_inputs p kwargs !! k = kwargs !! k.
Proof.
  intros Hk. unfold select_inputs.
  destruct (kwargs !! k) as [v|] eqn:E.
  - by apply map_lookup_filter_Some_2.
  - by apply map_lookup_filter_None_2; left.
Qed.

(** A [predict] whose prompt renders sends exactly one request, built from
    the model and temperature of the chain and the rendered text, and
    returns what the backend answers. *)
Lemma predict_run (chain : LLMChain) (kwargs : gmap string value)
    (text : string) (log : list Request) :
  missing_keys (chain_prompt chain) kwargs = [] →
  format (chain_prompt chain) (select_inputs (chain_prompt chain) kwargs)
  = Ok text →
  let req := mkRequest (llm_model (chain_llm chain))
                       (llm_temperature (chain_llm chain)) text in
  predict backend chain kwargs log = (backend req, log ++ [req]).
Proof.
  intros Hkeys Hfmt. unfold predict. rewrite Hkeys, Hfmt.
  unfold mbind, M_bind, bind, lift, invoke. by case_decide.
Qed.

End ClientFacts.

(* ===================================================================== *)
(** * Baseline solvers *)
(* ===================================================================== *)

Lemma standard_parse :
  parse SText standard.prompt_template
  = Ok (text_items standard.prompt_head
        ++ Field "problem" None "" :: text_items standard.prompt_tail).
Proof. vm_compute. reflexivity. Qed.

Lemma chain_of_thought_parse :
  parse SText chain_of_thought.prompt_template
  = Ok (text_items chain_of_thought.prompt_head
        ++ Field "problem_description" None ""
        :: text_items chain_of_thought.prompt_middle
        ++ [Field "code_example" None ""]).
Proof. vm_compute. reflexivity. Qed.

Lemma standard_from_template :
  from_template standard.prompt_template
  = Ok (mkPromptTemplate standard.prompt_template ["problem"]).
Proof. vm_compute. reflexivity. Qed.

Lemma chain_of_thought_from_template :
  from_template chain_of_thought.prompt_template
  = Ok (mkPromptTemplate chain_of_thought.prompt_template
          ["code_example"; "problem_description"]).
Proof. vm_compute. reflexivity. Qed.

Section Baselines.
Context {formatting : FieldFormatting} (backend : Request → result string).

(** Rendering the standard template needs the entry for [problem] only. *)
Lemma standard_format_lookup (problem : value) (vars : list string)
    (kwargs : gmap string value) :
  kwargs !! "problem" = Some problem →
  format (mkPromptTemplate standard.prompt_template vars) kwargs
  = Ok (standard.rendered problem).
Proof.
  intros Hp. unfold format, standard.rendered.
  cbn [template]. rewrite standard_parse.
  cbn [mbind result_bind]. rewrite render_text. cbn [render].
  unfold render_field. change (is_bare "problem" None "") with true.
  cbn iota. rewrite Hp. cbn [mbind result_bind].
  by rewrite render_text_only.
Qed.

Lemma standard_format (problem : value) (vars : list string) :
  format (mkPromptTemplate standard.prompt_template vars)
         (standard.predict_kwargs problem)
  = Ok (standard.rendered problem).
Proof. apply standard_format_lookup, lookup_singleton_eq. Qed.

Lemma chain_of_thought_format_lookup (d c : value) (vars : list string)
    (kwargs : gmap string value) :
  kwargs !! "problem_description" = Some d →
  kwargs !! "code_example" = Some c →
  format (mkPromptTemplate chain_of_thought.prompt_template vars) kwargs
  = Ok (chain_of_thought.rendered d c).
Proof.
  intros Hd Hc. unfold format, chain_of_thought.rendered.
  cbn [template]. rewrite chain_of_thought_parse.
  cbn [mbind result_bind]. rewrite render_text. cbn [render].
  unfold render_field.
  change (is_bare "problem_description" None "") with true.
  cbn iota. rewrite Hd. cbn [mbind result_bind].
  rewrite render_text. cbn [render]. unfold render_field.
  change (is_bare "code_example" None "") with true.
  cbn iota. rewrite Hc. cbn [mbind result_bind fmap result_fmap].
  by rewrite append_nil_r.
Qed.

Lemma chain_of_thought_format (d c : value) (vars : list string) :
  format (mkPromptTemplate chain_of_thought.prompt_template vars)
         (chain_of_thought.predict_kwargs d c)
  = Ok (chain_of_thought.rendered d c).
Proof.
  apply chain_of_thought_format_lookup; unfold chain_of_thought.predict_kwargs.
  - apply lookup_insert_eq.
  - by rewrite lookup_insert_ne, lookup_singleton_eq.
Qed.

Lemma standard_predict_run (problem : value) (model_name : string)
    (log : list Request) :
  let req := mkRequest model_name 0 (standard.rendered problem) in
  predict backend
    (mkLLMChain (mkChatOpenAI model_name 0)
       (mkPromptTemplate standard.prompt_template ["problem"]))
    (standard.predict_kwargs problem) log
  = (backend req, log ++ [req]).
Proof.
  intros req. erewrite predict_run; [done|by vm_compute|].
  apply standard_format_lookup. rewrite select_inputs_lookup.
  - apply lookup_singleton_eq.
  - cbn. set_solver.
Qed.

Lemma chain_of_thought_predict_run (d c : value) (model_name : string)
    (log : list Request) :
  let req := mkRequest model_name 0 (chain_of_thought.rendered d c) in
  predict backend
    (mkLLMChain (mkChatOpenAI model_name 0)
       (mkPromptTemplate chain_of_thought.prompt_template
          ["code_example"; "problem_description"]))
    (chain_of_thought.predict_kwargs d c) log
  = (backend req, log ++ [req]).
Proof.
  intros req.
  assert (chain_of_thought.predict_kwargs d c !! "problem_description" = Some d)
    as Hd by apply lookup_insert_eq.
  assert (chain_of_thought.predict_kwargs d c !! "code_example" = Some c)
    as Hc by (unfold chain_of_thought.predict_kwargs;
              by rewrite lookup_insert_ne, lookup_singleton_eq).
  erewrite predict_run; [done| |].
  - unfold missing_keys. cbn [chain_prompt input_variables].
    rewrite !filter_cons, filter_nil, Hd, Hc. by repeat case_decide.
  - apply chain_of_thought_format_lookup;
      (rewrite select_inputs_lookup; [done|cbn; set_solver]).
Qed.

Lemma standard_solve_predict (problem : value) (model_name : string)
    (log : list Request) :
  standard.solve backend problem model_name log
  = (let '(answer, log') :=
       predict backend
         (mkLLMChain (mkChatOpenAI model_name 0)
            (mkPromptTemplate standard.prompt_template ["problem"]))
         (standard.predict_kwargs problem) log in
     (utils.extract_code_from_string <$> answer, log')).
Proof.
  unfold standard.solve. rewrite standard_from_template.
  unfold mbind at 1 2. unfold M_bind, bind. unfold lift at 1.
  by destruct (predict _ _ _ _) as [[answer|e] log'].
Qed.

Lemma chain_of_thought_solve_predict (problem_data : gmap string value)
    (d c : value) (model_name : string) (log : list Request) :
  problem_data !! "description" = Some d →
  problem_data !! "code_example" = Some c →
  chain_of_thought.solve backend problem_data model_name log
  = predict backend
      (mkLLMChain (mkChatOpenAI model_name 0)
         (mkPromptTemplate chain_of_thought.prompt_template
            ["code_example"; "problem_description"]))
      (chain_of_thought.predict_kwargs d c) log.
Proof.
  intros Hd Hc. unfold chain_of_thought.solve, py_getitem.
  rewrite Hd, Hc, chain_of_thought_from_template.
  unfold mbind at 1 2 3 4. unfold M_bind, bind. unfold lift at 1 2 3.
  by destruct (predict _ _ _ _) as [[answer|e] log'].
Qed.

Lemma standard_solve_run (problem : value) (model_name : string) (log : list Request) :
  let req := mkRequest model_name 0 (standard.rendered problem) in
  standard.solve backend problem model_name log
  = (utils.extract_code_from_string <$> backend req, log ++ [req]).
Proof.
  intros req. by rewrite standard_solve_predict, standard_predict_run.
Qed.

Lemma chain_of_thought_solve_run (problem_data : gmap string value)
    (d c : value) (model_name : string) (log : list Request) :
  problem_data !! "description" = Some d →
  problem_data !! "code_example" = Some c →
  let req := mkRequest model_name 0 (chain_of_thought.rendered d c) in
  chain_of_thought.solve backend problem_data model_name log
  = (backend req, log ++ [req]).
Proof.
  intros Hd Hc req.
  by rewrite (chain_of_thought_solve_predict _ d c), chain_of_thought_predict_run.
Qed.

End Baselines.

Section BaselineClaims.
Context {formatting : FieldFormatting} (backend : Request → result string).

(** C4. The standard solver renders its template, sends one request at
    temperature 0 and returns the code extracted from the answer; the
    chain-of-thought solver renders its template, sends one request at
    temperature 0 and returns the answer as it is.  A failure of the
    backend is passed on by both. *)
Theorem baseline_solvers (model_name : string) (log : list Request) :
  (∀ problem,
     let prompt := mkPromptTemplate standard.prompt_template ["problem"] in
     let req := mkRequest model_name 0 (standard.rendered problem) in
     from_template standard.prompt_template = Ok prompt ∧
     format prompt (standard.predict_kwargs problem) = Ok (req_prompt req) ∧
     standard.solve backend problem model_name log
     = (utils.extract_code_from_string <$> backend req, log ++ [req])) ∧
  (∀ problem_data d c,
     problem_data !! "description" = Some d →
     problem_data !! "code_example" = Some c →
     let prompt := mkPromptTemplate chain_of_thought.prompt_template
                     ["code_example"; "problem_description"] in
     let req := mkRequest model_name 0 (chain_of_thought.rendered d c) in
     from_template chain_of_thought.prompt_template = Ok prompt ∧
     format prompt (chain_of_thought.predict_kwargs d c) = Ok (req_prompt req) ∧
     chain_of_thought.solve backend problem_data model_name log
     = (backend req, log ++ [req])).
Proof.
  split.
  - intros problem prompt req. split; [apply standard_from_template|].
    split; [apply standard_format|apply standard_solve_run].
  - intros problem_data d c Hd Hc prompt req.
    split; [apply chain_of_thought_from_template|].
    split; [apply chain_of_thought_format|].
    by apply chain_of_thought_solve_run.
Qed.

(** C10. When [problem_data] lacks the key ['description'] or the key
    ['code_example'], the chain-of-thought solver raises [KeyError] for
    the first of the two that is missing and sends no request. *)
Theorem chain_of_thought_missing_key (problem_data : gmap string value)
    (model_name : string) (log : list Request) :
  problem_data !! "description" = None ∨ problem_data !! "code_example" = None →
  ∃ key,
    (key = "description" ∨ key = "code_example") ∧
    problem_data !! key = None ∧
    chain_of_thought.solve backend problem_data model_name log
    = (Raise (KeyError key), log).
Proof.
  intros H'. unfold chain_of_thought.solve, py_getitem.
  destruct (problem_data !! "description") as [d|] eqn:Hd.
  - destruct H' as [?|Hc]; [done|]. rewrite Hc.
    exists "code_example". by repeat split; [right|..].
  - exists "description". by repeat split; [left|..].
Qed.


End BaselineClaims.

Section BaselineSamples.
#[local] Existing Instance sample_formatting.

Lemma baseline_solvers_run :
  standard.solve fenced_backend (VStr "Maximize x") default_model_name []
  = (Ok "print(1)", [mkRequest default_model_name 0 (standard.rendered (VStr "Maximize x"))]) ∧
  chain_of_thought.solve fenced_backend lp_problem_data default_model_name []
  = (Ok ("```python" +:+ nl +:+ "print(1)" +:+ nl +:+ "```"),
     [mkRequest default_model_name 0
        (chain_of_thought.rendered
           (VStr "Maximize x + y subject to x <= 1, y <= 1")
           (VStr "def prob_0():"))]).
Proof.
  destruct (baseline_solvers fenced_backend default_model_name []) as [Hs Hc].
  split.
  - apply (Hs (VStr "Maximize x")).
  - apply (Hc lp_problem_data); reflexivity.
Defined.

Lemma chain_of_thought_missing_key_run :
  ∃ key,
    (key = "description" ∨ key = "code_example") ∧
    incomplete_problem_data !! key = None ∧
    chain_of_thought.solve fenced_backend incomplete_problem_data "m" []
    = (Raise (KeyError key), []).
Proof.
  apply (chain_of_thought_missing_key fenced_backend incomplete_problem_data "m" []).
  right. reflexivity.
Defined.


End BaselineSamples.
(* ===================================================================== *)
(** * Experts *)
(* ===================================================================== *)

Section Experts.
Import base_expert.

(** What a successful construction has read from the class and what it has
    stored in the object. *)
Lemma init_Ok (cls : gmap string value) (n d m : string) (e : BaseExpert) :
  init cls n d m = Ok e ↔
  ∃ role task fwd,
    cls !! "ROLE_DESCRIPTION" = Some (VStr role) ∧
    cls !! "FORWARD_TASK" = Some (VStr task) ∧
    from_template ((role +:+ nl) +:+ task) = Ok fwd ∧
    let llm := mkChatOpenAI m 0 in
    let made := mkBaseExpert cls n d m llm
                  (VStr ((role +:+ nl) +:+ task)) (mkLLMChain llm fwd) in
    (cls !! "BACKWARD_TASK" = None ∧ e = made None None) ∨
    (∃ btask bwd,
       cls !! "BACKWARD_TASK" = Some (VStr btask) ∧
       from_template ((role +:+ nl) +:+ btask) = Ok bwd ∧
       e = made (Some (VStr ((role +:+ nl) +:+ btask)))
                (Some (mkLLMChain llm bwd))).
Proof.
  unfold init, getattr, hasattr.
  destruct (cls !! "ROLE_DESCRIPTION") as [[|role]|] eqn:Hr;
    cbn [mbind result_bind py_add]; try by (split; [|intros (?&?&?&?&_)]).
  destruct (cls !! "FORWARD_TASK") as [[|task]|] eqn:Hf;
    cbn [mbind result_bind py_add from_template_value];
    try by (split; [|intros (?&?&?&?&?&_)]).
  destruct (from_template ((role +:+ nl) +:+ task)) as [fwd|err] eqn:Hfwd;
    cbn [mbind result_bind].
  2:{ split; [done|]. intros (?&?&?&[= <-]&[= <-]&?&_). congruence. }
  destruct (cls !! "BACKWARD_TASK") as [[|btask]|] eqn:Hb;
    cbn [bool_decide decide_rel mbind result_bind py_add from_template_value mret result_ret].
  - rewrite bool_decide_eq_true_2 by eauto. cbn [mbind result_bind py_add].
    split; [done|]. intros (?&?&?&_&_&_&[[? _]|(?&?&?&_)]); done.
  - rewrite bool_decide_eq_true_2 by eauto.
    cbn [mbind result_bind py_add from_template_value].
    destruct (from_template ((role +:+ nl) +:+ btask)) as [bwd|err] eqn:Hbwd;
      cbn [mbind result_bind mret result_ret].
    + split.
      * intros [= <-]. exists role, task, fwd. repeat split; try done.
        right. by exists btask, bwd.
      * intros (?&?&?&[= <-]&[= <-]&?&[[? _]|(?&?&[= <-]&?&->)]); [done|].
        repeat f_equal; congruence.
    + split; [done|].
      intros (?&?&?&[= <-]&[= <-]&?&[[? _]|(?&?&[= <-]&?&_)]); [done|congruence].
  - rewrite bool_decide_eq_false_2 by (by intros [? ?]).
    split.
    + intros [= <-]. exists role, task, fwd. repeat split; try done. by left.
    + intros (?&?&?&[= <-]&[= <-]&?&[[_ ->]|(?&?&?&_)]); [|done].
      repeat f_equal; congruence.
Qed.

End Experts.

(* ===================================================================== *)
(** * Templates *)
(* ===================================================================== *)


Lemma fmap_Ok {A B} (f : A → B) (m : result A) (b : B) :
  f <$> m = Ok b → ∃ a, m = Ok a ∧ b = f a.
Proof.
  destruct m as [a|e]; [|discriminate].
  intros H. change (Ok (f a) = Ok b) in H. injection H as <-. by exists a.
Qed.





Lemma from_template_Ok (t : string) (p : PromptTemplate) :
  from_template t = Ok p → template p = t.
Proof.
  unfold from_template. destruct (parse SText t); [|done].
  cbn [mbind result_bind]. destruct (existsb _ _); [done|]. by intros [= <-].
Qed.

(** The inputs of a prompt are the field names of its template, sorted
    and without repeats. *)
Lemma from_template_input_variables (t : string) (p : PromptTemplate) :
  from_template t = Ok p →
  ∃ items, parse SText t = Ok items ∧
           input_variables p = sorted_names (field_names items).
Proof.
  unfold from_template. destruct (parse SText t) as [items|]; [|done].
  cbn [mbind result_bind]. destruct (existsb _ _); [done|].
  intros [= <-]. by exists items.
Qed.

Lemma field_names_app (xs ys : list item) :
  field_names (xs ++ ys) = field_names xs ++ field_names ys.
Proof.
  induction xs as [|[c|name cv spec] xs IH]; [done|done|].
  simpl. by rewrite IH.
Qed.

(** Parsing a concatenation: when the first part parses on its own, the
    items of the whole are the items of the parts. *)
Lemma parse_append (a b : string) (st : scan_state) (ia ib : list item) :
  parse st a = Ok ia →
  parse SText b = Ok ib →
  parse st (a +:+ b) = Ok (ia ++ ib).
Proof.
  revert st ia. induction a as [|c r IH]; intros st ia Ha Hb.
  - rewrite append_nil_l. destruct st; simpl in Ha; try done.
    by injection Ha as <-.
  - rewrite append_cons. simpl in Ha |- *.
    destruct (step st c) as [[st' out]|e']; [|done].
    cbn [mbind result_bind] in Ha |- *.
    apply fmap_Ok in Ha as (ir & Hr & ->).
    rewrite (IH st' ir Hr Hb). cbn. by rewrite app_assoc.
Qed.

Lemma parse_nl : parse SText nl = Ok [Text "010"%char].
Proof. reflexivity. Qed.

(* ===================================================================== *)
(** * Construction of an expert *)
(* ===================================================================== *)





(* ===================================================================== *)
(** * The operations of an expert *)
(* ===================================================================== *)

(** C2, as the code has it.  [forward] takes no inputs.  Called with none
    it returns [None]; called with any keyword input it raises
    [TypeError]; either way no request is sent and the expert is left as
    it was.  Rendering and dispatching are left to the subclasses that
    override [forward]. *)
Theorem forward_is_stub (self : base_expert.BaseExpert)
    (inputs : gmap string value) (log : list Request) :
  base_expert.call base_expert.forward inputs (self, log)
  = (if decide (inputs = ∅) then Ok VNone
     else Raise (TypeError "got an unexpected keyword argument"),
     (self, log)).
Proof. unfold base_expert.call. by case_decide. Qed.

Section ForwardSample.
#[local] Existing Instance sample_formatting.

(** C2, as the spec has it, fails: an expert whose forward template needs
    no input, called with no input, returns [None] and sends nothing,
    where the contract asks for one request and the answer to it. *)
Lemma forward_sends_nothing :
  ∃ e,
    base_expert.init checker_class "checker" "reviews code" "gpt" = Ok e ∧
    missing_keys (chain_prompt (base_expert.forward_chain e)) ∅ = [] ∧
    base_expert.call base_expert.forward ∅ (e, []) = (Ok VNone, (e, [])) ∧
    ¬ pipeline_contract fenced_backend (base_expert.forward_chain e) ∅ (e, [])
        (base_expert.call base_expert.forward ∅ (e, [])).2
        (base_expert.call base_expert.forward ∅ (e, [])).1.
Proof.
  eexists. split; [reflexivity|]. split; [reflexivity|].
  split; [reflexivity|].
  intros (text & _ & Hlog & _). by injection Hlog.
Qed.

End ForwardSample.

(** C1, as the code has it.  [backward] is [forward]: whether or not the
    expert has a backward pipeline, it returns [None] when called with no
    inputs and raises [TypeError] when called with any, sends no request
    and leaves the expert as it was.  It never raises
    [CapabilityError]. *)
Theorem backward_is_stub (self : base_expert.BaseExpert)
    (inputs : gmap string value) (log : list Request) :
  base_expert.call base_expert.backward inputs (self, log)
  = base_expert.call base_expert.forward inputs (self, log) ∧
  base_expert.call base_expert.backward inputs (self, log)
  = (if decide (inputs = ∅) then Ok VNone
     else Raise (TypeError "got an unexpected keyword argument"),
     (self, log)) ∧
  ¬ raises (base_expert.call base_expert.backward inputs (self, log)).1
      "CapabilityError".
Proof.
  split; [done|]. unfold base_expert.call.
  case_decide; (split; [done|]); by intros (e & [= <-] & ?).
Qed.

Lemma backward_is_stub_checker :
  ∃ e,
    base_expert.init checker_class "checker" "reviews code" "gpt" = Ok e ∧
    base_expert.call base_expert.backward ∅ (e, [])
    = base_expert.call base_expert.forward ∅ (e, []) ∧
    base_expert.call base_expert.backward ∅ (e, []) = (Ok VNone, (e, [])).
Proof.
  eexists. split; [reflexivity|].
  match goal with
  | |- base_expert.call _ _ (?e, _) = _ ∧ _ =>
      destruct (backward_is_stub e ∅ []) as (Hsame & Hnone & _)
  end.
  split; [exact Hsame|exact Hnone].
Defined.

Section BackwardSample.
#[local] Existing Instance sample_formatting.

(** C1, as the spec has it, fails: an expert built without a backward
    task returns [None] from [backward] instead of raising
    [CapabilityError]; and an expert built with one sends no request from
    [backward], even when the input of its template is supplied. *)
Lemma backward_without_pipeline_returns :
  (∃ e,
     base_expert.init checker_class "checker" "reviews code" "gpt" = Ok e ∧
     base_expert.backward_chain e = None ∧
     base_expert.call base_expert.backward ∅ (e, []) = (Ok VNone, (e, [])) ∧
     ¬ raises (base_expert.call base_expert.backward ∅ (e, [])).1
         "CapabilityError") ∧
  (∃ e chain,
     base_expert.init modeling_class "modeler" "formulates" "gpt" = Ok e ∧
     base_expert.backward_chain e = Some chain ∧
     let inputs : gmap string value := {[ "feedback" := VStr "infeasible" ]} in
     missing_keys (chain_prompt chain) inputs = [] ∧
     ¬ pipeline_contract fenced_backend chain inputs (e, [])
         (base_expert.call base_expert.backward inputs (e, [])).2
         (base_expert.call base_expert.backward inputs (e, [])).1).
Proof.
  split.
  - eexists. split; [reflexivity|]. split; [reflexivity|].
    split; [reflexivity|]. by intros (e & [= <-] & ?).
  - eexists _, _. split; [reflexivity|]. split; [reflexivity|].
    split; [reflexivity|].
    intros (text & _ & Hlog & _). by injection Hlog.
Qed.

End BackwardSample.

(** C8. The textual representation of an expert built with name [n] and
    description [d] is [n], a colon and a space, then [d]. *)
Theorem str_name_description (cls : gmap string value) (n d m : string)
    (e : base_expert.BaseExpert) (log : list Request) :
  base_expert.init cls n d m = Ok e →
  (base_expert.str (e, log)).1 = Ok (n +:+ ": " +:+ d).
Proof.
  intros (role & task & fwd & _ & _ & _ & He)%init_Ok.
  by destruct He as [[_ ->]|(? & ? & _ & _ & ->)].
Qed.

Lemma str_name_description_modeler :
  ∃ e,
    base_expert.init modeling_class "modeler" "formulates" "gpt" = Ok e ∧
    (base_expert.str (e, [])).1 = Ok "modeler: formulates".
Proof.
  eexists. split; [reflexivity|].
  by apply (str_name_description modeling_class "modeler" "formulates" "gpt").
Defined.

(** C5. After a successful construction the forward pipeline is the role
    description and the forward task, joined by a newline, bound to the
    model at temperature 0; a backward pipeline is present exactly when
    the class defines a backward task; and [forward], [backward] and
    [__str__], however they end, leave every field of the expert as
    construction set it. *)
Theorem pipelines_fixed (cls : gmap string value) (n d m : string)
    (e : base_expert.BaseExpert) :
  base_expert.init cls n d m = Ok e →
  (∃ role task,
     cls !! "ROLE_DESCRIPTION" = Some (VStr role) ∧
     cls !! "FORWARD_TASK" = Some (VStr task) ∧
     chain_llm (base_expert.forward_chain e) = mkChatOpenAI m 0 ∧
     template (chain_prompt (base_expert.forward_chain e))
     = role +:+ nl +:+ task) ∧
  (is_Some (base_expert.backward_chain e) ↔ is_Some (cls !! "BACKWARD_TASK")) ∧
  (∀ inputs log,
     (base_expert.call base_expert.forward inputs (e, log)).2 = (e, log) ∧
     (base_expert.call base_expert.backward inputs (e, log)).2 = (e, log) ∧
     (base_expert.str (e, log)).2 = (e, log)).
Proof.
  intros (role & task & fwd & Hr & Hf & Hfwd & He)%init_Ok.
  apply from_template_Ok in Hfwd. rewrite append_assoc in Hfwd.
  split; [|split].
  - exists role, task.
    by destruct He as [[_ ->]|(? & ? & _ & _ & ->)].
  - destruct He as [[Hb ->]|(btask & bwd & Hb & _ & ->)]; rewrite Hb; cbn.
    + split; by intros [? ?].
    + split; eauto.
  - intros inputs log. unfold base_expert.call.
    by case_decide.
Qed.

Lemma pipelines_fixed_modeler :
  ∃ e,
    base_expert.init modeling_class "modeler" "formulates" "gpt" = Ok e ∧
    template (chain_prompt (base_expert.forward_chain e))
    = "You are a modeling expert." +:+ nl +:+ "Formulate the problem: {problem}" ∧
    is_Some (base_expert.backward_chain e) ∧
    (base_expert.call base_expert.forward ∅ (e, [])).2 = (e, []).
Proof.
  eexists. split; [reflexivity|].
  edestruct (pipelines_fixed modeling_class "modeler" "formulates" "gpt")
    as ((role & task & Hr & Hf & _ & Ht) & Hb & Hm); [reflexivity|].
  injection Hr as <-. injection Hf as <-.
  split; [exact Ht|]. split; [by apply Hb|]. apply (Hm ∅ []).
Defined.

(* ===================================================================== *)
(** * Further properties of the baseline solvers *)
(* ===================================================================== *)

Lemma append_eq_self_l (k t : string) : t = k +:+ t → k = "".
Proof.
  intros H%(f_equal String.length). rewrite length_append in H.
  destruct k; [done|simpl in H; lia].
Qed.

Lemma append_inv_tail (a b t : string) : a +:+ t = b +:+ t → a = b.
Proof.
  intros H.
  destruct (append_eq_inv _ _ _ _ H) as [(k & -> & Hk)|(k & -> & Hk)];
    apply append_eq_self_l in Hk as ->; by rewrite append_nil_r.
Qed.

Section BaselineFacts.
Context {formatting : FieldFormatting} (backend : Request → result string).

(** X1. The standard solver raises exactly when the backend raises on its
    one request, and then raises the same exception: rendering cannot
    fail, no input key can be missing. *)
Theorem standard_raises_iff_backend (problem : value) (model_name : string)
    (log : list Request) (e : exn) :
  (standard.solve backend problem model_name log).1 = Raise e ↔
  backend (mkRequest model_name 0 (standard.rendered problem)) = Raise e.
Proof.
  rewrite standard_solve_run. cbn [fst].
  destruct (backend _) as [answer|e']; [done|].
  split; intros [= ->]; done.
Qed.

(** X2. Two calls of the standard solver send the same request exactly
    when their problems have the same text, and then they end alike.  In
    particular [None] is not rejected: it is sent as the text [None]. *)
Theorem standard_request_determines_text (p1 p2 : value)
    (model_name : string) (log : list Request) :
  ((standard.solve backend p1 model_name log).2
   = (standard.solve backend p2 model_name log).2 ↔ py_str p1 = py_str p2) ∧
  (py_str p1 = py_str p2 →
   standard.solve backend p1 model_name log
   = standard.solve backend p2 model_name log).
Proof.
  rewrite !standard_solve_run. cbn [snd]. unfold standard.rendered. split.
  - split.
    + intros H%(inj (app log)). injection H as H.
      by apply (inj (String.append _)), append_inv_tail in H.
    + by intros ->.
  - by intros ->.
Qed.

(** X3. The chain-of-thought solver reads ['description'] first: when it
    is missing the [KeyError] names it, whatever else the mapping holds;
    when it is there and ['code_example'] is missing the [KeyError] names
    ['code_example'].  No request is sent in either case. *)
Theorem chain_of_thought_first_missing_key (problem_data : gmap string value)
    (model_name : string) (log : list Request) :
  (problem_data !! "description" = None →
   chain_of_thought.solve backend problem_data model_name log
   = (Raise (KeyError "description"), log)) ∧
  (is_Some (problem_data !! "description") →
   problem_data !! "code_example" = None →
   chain_of_thought.solve backend problem_data model_name log
   = (Raise (KeyError "code_example"), log)).
Proof.
  unfold chain_of_thought.solve, py_getitem. split.
  - by intros ->.
  - by intros [d ->] ->.
Qed.

(** X4. The chain-of-thought solver uses nothing of [problem_data] but
    the text of its two entries: mappings that agree on them, whatever
    other keys they hold, give the same run.  An entry whose value is
    [None] is present, and is sent as the text [None]. *)
Theorem chain_of_thought_reads_two_entries (pd1 pd2 : gmap string value)
    (model_name : string) (log : list Request) :
  py_str <$> pd1 !! "description" = py_str <$> pd2 !! "description" →
  py_str <$> pd1 !! "code_example" = py_str <$> pd2 !! "code_example" →
  chain_of_thought.solve backend pd1 model_name log
  = chain_of_thought.solve backend pd2 model_name log.
Proof.
  intros Hd Hc.
  destruct (pd1 !! "description") as [d1|] eqn:Hd1,
           (pd2 !! "description") as [d2|] eqn:Hd2; try done.
  - destruct (pd1 !! "code_example") as [c1|] eqn:Hc1,
             (pd2 !! "code_example") as [c2|] eqn:Hc2; try done.
    + rewrite (chain_of_thought_solve_run _ pd1 d1 c1),
        (chain_of_thought_solve_run _ pd2 d2 c2) by done.
      injection Hd as Hd. injection Hc as Hc.
      unfold chain_of_thought.rendered. by rewrite Hd, Hc.
    + unfold chain_of_thought.solve, py_getitem.
      by rewrite Hd1, Hd2, Hc1, Hc2.
  - unfold chain_of_thought.solve, py_getitem. by rewrite Hd1, Hd2.
Qed.

(** X5. What the chain-of-thought solver can raise: a [KeyError] for one
    of its two keys, missing from [problem_data], with no request sent;
    or what the backend raised on the one request sent.  It never fails
    on rendering. *)
Theorem chain_of_thought_raises (problem_data : gmap string value)
    (model_name : string) (log : list Request) (e : exn) :
  (chain_of_thought.solve backend problem_data model_name log).1 = Raise e →
  (∃ key,
     (key = "description" ∨ key = "code_example") ∧
     e = KeyError key ∧ problem_data !! key = None ∧
     (chain_of_thought.solve backend problem_data model_name log).2 = log) ∨
  (∃ d c,
     problem_data !! "description" = Some d ∧
     problem_data !! "code_example" = Some c ∧
     let req := mkRequest model_name 0 (chain_of_thought.rendered d c) in
     backend req = Raise e ∧
     (chain_of_thought.solve backend problem_data model_name log).2
     = log ++ [req]).
Proof.
  destruct (problem_data !! "description") as [d|] eqn:Hd.
  - destruct (problem_data !! "code_example") as [c|] eqn:Hc.
    + rewrite (chain_of_thought_solve_run _ _ d c) by done. cbn [fst snd].
      intros He. right. by exists d, c.
    + unfold chain_of_thought.solve, py_getitem. rewrite Hd, Hc.
      intros [= <-]. left. exists "code_example". by repeat split; [right|..].
  - unfold chain_of_thought.solve, py_getitem. rewrite Hd.
    intros [= <-]. left. exists "description". by repeat split; [left|..].
Qed.

(** X6. The chain-of-thought prompt does not keep its two inputs apart:
    text moved from the end of the description to the front of the
    starter code, across the fixed lines between them, gives the same
    request and so the same run. *)
Theorem chain_of_thought_boundary (pd1 pd2 : gmap string value)
    (x y z : string) (model_name : string) (log : list Request) :
  pd1 !! "description"
  = Some (VStr (x +:+ chain_of_thought.prompt_middle +:+ y)) →
  pd1 !! "code_example" = Some (VStr z) →
  pd2 !! "description" = Some (VStr x) →
  pd2 !! "code_example"
  = Some (VStr (y +:+ chain_of_thought.prompt_middle +:+ z)) →
  chain_of_thought.solve backend pd1 model_name log
  = chain_of_thought.solve backend pd2 model_name log.
Proof.
  intros Hd1 Hc1 Hd2 Hc2.
  rewrite (chain_of_thought_solve_run _ pd1 _ _ _ _ Hd1 Hc1),
    (chain_of_thought_solve_run _ pd2 _ _ _ _ Hd2 Hc2).
  unfold chain_of_thought.rendered. cbn [py_str].
  by rewrite !append_assoc.
Qed.

End BaselineFacts.

(* ===================================================================== *)
(** * Further properties of the construction of an expert *)
(* ===================================================================== *)

(** X7. When construction succeeds and has built a backward pipeline, that
    pipeline is the role description and the backward task joined by a
    newline, kept as [backward_prompt_template], and it goes to the same
    client as the forward pipeline: the given model at temperature 0. *)
Theorem backward_pipeline_built (cls : gmap string value) (n d m : string)
    (e : base_expert.BaseExpert) (chain : LLMChain) :
  base_expert.init cls n d m = Ok e →
  base_expert.backward_chain e = Some chain →
  ∃ role btask,
    cls !! "ROLE_DESCRIPTION" = Some (VStr role) ∧
    cls !! "BACKWARD_TASK" = Some (VStr btask) ∧
    template (chain_prompt chain) = role +:+ nl +:+ btask ∧
    base_expert.backward_prompt_template e
    = Some (VStr (role +:+ nl +:+ btask)) ∧
    chain_llm chain = chain_llm (base_expert.forward_chain e) ∧
    chain_llm chain = mkChatOpenAI m 0.
Proof.
  intros (role & task & fwd & Hr & _ & _ & He)%init_Ok Hchain.
  destruct He as [[_ ->]|(btask & bwd & Hb & Hbwd & ->)]; [done|].
  injection Hchain as <-. apply from_template_Ok in Hbwd.
  exists role, btask. rewrite <-append_assoc. by repeat split.
Qed.

(** X8. Construction does not look at the name, the description or the
    model: with the same class it raises the same exception, or succeeds
    with the same prompts, whatever they are; an empty name is taken as
    any other. *)
Theorem init_ignores_identity (cls : gmap string value)
    (n d m n' d' m' : string) :
  match base_expert.init cls n d m, base_expert.init cls n' d' m' with
  | Ok e, Ok e' =>
      chain_prompt (base_expert.forward_chain e)
      = chain_prompt (base_expert.forward_chain e') ∧
      chain_prompt <$> base_expert.backward_chain e
      = chain_prompt <$> base_expert.backward_chain e'
  | Raise x, Raise x' => x = x'
  | _, _ => False
  end.
Proof.
  unfold base_expert.init, base_expert.getattr.
  destruct (cls !! "ROLE_DESCRIPTION") as [[|role]|];
    cbn [mbind result_bind py_add]; try done.
  destruct (cls !! "FORWARD_TASK") as [[|task]|];
    cbn [mbind result_bind py_add base_expert.from_template_value]; try done.
  destruct (from_template ((role +:+ nl) +:+ task)) as [fwd|err];
    cbn [mbind result_bind]; [|done].
  destruct (base_expert.hasattr cls "BACKWARD_TASK"); [|done].
  destruct (cls !! "BACKWARD_TASK") as [[|btask]|];
    cbn [mbind result_bind py_add base_expert.from_template_value]; try done.
  by destruct (from_template ((role +:+ nl) +:+ btask)).
Qed.

(** X9. The role description is part of the template.  When the role
    description and the forward task are each a well-formed format string
    and construction succeeds, the inputs that the forward pipeline
    requires are the field names of the two together, sorted and without
    repeats. *)
Theorem forward_input_variables (cls : gmap string value) (n d m : string)
    (e : base_expert.BaseExpert) (role task : string)
    (irole itask : list item) :
  base_expert.init cls n d m = Ok e →
  cls !! "ROLE_DESCRIPTION" = Some (VStr role) →
  cls !! "FORWARD_TASK" = Some (VStr task) →
  parse SText role = Ok irole →
  parse SText task = Ok itask →
  input_variables (chain_prompt (base_expert.forward_chain e))
  = sorted_names (field_names irole ++ field_names itask).
Proof.
  intros (role' & task' & fwd & Hr & Hf & Hfwd & He)%init_Ok Hr' Hf' Hrole Htask.
  rewrite Hr in Hr'. injection Hr' as ->.
  rewrite Hf in Hf'. injection Hf' as ->.
  apply from_template_input_variables in Hfwd as (items & Hitems & Hvars).
  pose proof (parse_append role nl SText irole _ Hrole parse_nl) as H1.
  pose proof (parse_append (role +:+ nl) task SText _ itask H1 Htask) as H2.
  rewrite Hitems in H2. injection H2 as ->.
  assert (input_variables (chain_prompt (base_expert.forward_chain e))
          = input_variables fwd) as ->
    by by destruct He as [[_ ->]|(? & ? & _ & _ & ->)].
  rewrite Hvars, !field_names_app. simpl. by rewrite app_nil_r.
Qed.


(* ===================================================================== *)
(** * The further properties at sample inputs *)
(* ===================================================================== *)

Section FurtherSamples.
#[local] Existing Instance sample_formatting.

Lemma standard_raises_iff_backend_down :
  (standard.solve failing_backend (VStr "Maximize x") default_model_name []).1
  = Raise (ExternalError "APIConnectionError" "Connection error.").
Proof.
  by apply (standard_raises_iff_backend failing_backend
              (VStr "Maximize x") default_model_name []).
Defined.

Lemma standard_request_determines_text_none :
  standard.solve fenced_backend VNone default_model_name []
  = standard.solve fenced_backend (VStr "None") default_model_name [].
Proof.
  by apply (standard_request_determines_text fenced_backend
              VNone (VStr "None") default_model_name []).
Defined.

Lemma chain_of_thought_first_missing_key_empty :
  chain_of_thought.solve fenced_backend ∅ default_model_name []
  = (Raise (KeyError "description"), []) ∧
  chain_of_thought.solve fenced_backend incomplete_problem_data
    default_model_name []
  = (Raise (KeyError "code_example"), []).
Proof.
  split.
  - by apply (chain_of_thought_first_missing_key fenced_backend ∅).
  - apply (chain_of_thought_first_missing_key fenced_backend
             incomplete_problem_data); [by eexists|done].
Defined.

Lemma chain_of_thought_reads_two_entries_annotated :
  chain_of_thought.solve fenced_backend annotated_problem_data
    default_model_name []
  = chain_of_thought.solve fenced_backend plain_problem_data
      default_model_name [].
Proof.
  by apply (chain_of_thought_reads_two_entries fenced_backend
              annotated_problem_data plain_problem_data).
Defined.

Lemma chain_of_thought_raises_backend_down :
  (∃ key,
     (key = "description" ∨ key = "code_example") ∧
     ExternalError "APIConnectionError" "Connection error." = KeyError key ∧
     lp_problem_data !! key = None ∧
     (chain_of_thought.solve failing_backend lp_problem_data
        default_model_name []).2 = []) ∨
  (∃ d c,
     lp_problem_data !! "description" = Some d ∧
     lp_problem_data !! "code_example" = Some c ∧
     let req := mkRequest default_model_name 0 (chain_of_thought.rendered d c) in
     failing_backend req
     = Raise (ExternalError "APIConnectionError" "Connection error.") ∧
     (chain_of_thought.solve failing_backend lp_problem_data
        default_model_name []).2 = [] ++ [req]).
Proof.
  by apply (chain_of_thought_raises failing_backend lp_problem_data
              default_model_name []).
Defined.

Lemma chain_of_thought_boundary_forged :
  chain_of_thought.solve fenced_backend forged_problem_data default_model_name []
  = chain_of_thought.solve fenced_backend honest_problem_data
      default_model_name [].
Proof.
  by apply (chain_of_thought_boundary fenced_backend
              forged_problem_data honest_problem_data
              "Minimize x" "import os" "def prob_0():").
Defined.

Lemma backward_pipeline_built_modeler :
  ∃ e chain,
    base_expert.init modeling_class "modeler" "formulates" "gpt" = Ok e ∧
    base_expert.backward_chain e = Some chain ∧
    template (chain_prompt chain)
    = "You are a modeling expert." +:+ nl +:+ "Revise the model given: {feedback}" ∧
    chain_llm chain = mkChatOpenAI "gpt" 0.
Proof.
  eexists _, _. split; [reflexivity|]. split; [reflexivity|].
  edestruct (backward_pipeline_built modeling_class "modeler" "formulates" "gpt")
    as (role & btask & Hr & Hb & Ht & _ & _ & Hllm); [reflexivity..|].
  injection Hr as <-. injection Hb as <-. by split.
Defined.

Lemma forward_input_variables_shared :
  ∃ e,
    base_expert.init shared_field_class "modeler" "formulates" "gpt" = Ok e ∧
    input_variables (chain_prompt (base_expert.forward_chain e))
    = ["alpha"; "x"; "zeta"].
Proof.
  eexists. split; [reflexivity|].
  by apply (forward_input_variables shared_field_class "modeler" "formulates" "gpt" _
              "As {zeta}, for {x}:" "Solve {alpha} with {x}."
              (text_items "As " ++ Field "zeta" None ""
               :: text_items ", for " ++ Field "x" None "" :: text_items ":")
              (text_items "Solve " ++ Field "alpha" None ""
               :: text_items " with " ++ Field "x" None "" :: text_items ".")).
Defined.


End FurtherSamples.
